(** * taupy/tau.py: the [Arrivals] container and the [TauPyModel] facade

    A shallow embedding of [src/taupy/tau.py]:

    - [Arrivals], the [list] subclass with its [__str__] and [__repr__];
    - [TauPyModel.__init__], the load / build / reload protocol;
    - [get_travel_time], [get_pierce_points], [get_ray_paths];
    - [create_taup_model].

    The collaborators imported at the top of the module ([load],
    [TauP_Create.main], the three engine classes) are not part of the
    file; they are section variables acting on an abstract world.  Every
    call the facade makes to one of them is recorded in a log, so that
    "how many times" and "with which arguments" are statements about
    lists of events. *)

From Stdlib Require Import List String Ascii Bool Arith Lia ZArith.
From Stdlib Require Import Numbers.DecimalString.
From Stdlib Require Numbers.DecimalNat.
Import ListNotations.

Local Open Scope list_scope.
Local Open Scope string_scope.

Set Implicit Arguments.

(* ------------------------------------------------------------------ *)
(** ** Python built-ins used by the module *)

Module Py.

(** The two control characters of the format string of [__str__]. *)
Definition NL : string := String (ascii_of_nat 10) EmptyString.
Definition TAB : string := String (ascii_of_nat 9) EmptyString.

(** [str(n)] for a non-negative [int], as produced by [len]. *)
Definition str_of_int (n : nat) : string :=
  NilEmpty.string_of_uint (Nat.to_uint n).

(** [sep.join(parts)]. *)
Definition join (sep : string) (parts : list string) : string :=
  String.concat sep parts.

(** [sub in s] on [str]: substring test. *)
Fixpoint contains (sub s : string) : bool :=
  if String.prefix sub s then true
  else match s with
       | EmptyString => false
       | String _ s' => contains sub s'
       end.

(** [list.extend(self, iterable)]: the elements of the iterable are
    appended one after the other. *)
Definition extend {A : Type} (self iterable : list A) : list A :=
  fold_left (fun acc x => (acc ++ [x])%list) iterable self.

(** [os.path.join(a, b)] (posix). *)
Definition starts_with_slash (s : string) : bool :=
  match s with
  | String c _ => Ascii.eqb c "/"
  | EmptyString => false
  end.

Fixpoint ends_with_slash (s : string) : bool :=
  match s with
  | EmptyString => false
  | String c EmptyString => Ascii.eqb c "/"
  | String _ s' => ends_with_slash s'
  end.

Definition path_join (a b : string) : string :=
  if starts_with_slash b then b
  else if (String.eqb a "" || ends_with_slash a)%bool then a ++ b
  else a ++ "/" ++ b.

(** Exceptions.  [except FileNotFoundError] selects the instances of
    that class; every other exception is kept with its class name. *)
Inductive exn : Type :=
| FileNotFoundError (msg : string)
| OtherError (cls msg : string).

Definition is_FileNotFoundError (e : exn) : bool :=
  match e with
  | FileNotFoundError _ => true
  | OtherError _ _ => false
  end.

(** What every object offers to [str()] and [repr()]. *)
Class Display (A : Type) : Type :=
  { str : A -> string;
    repr : A -> string }.

End Py.

(* ------------------------------------------------------------------ *)
(** ** class Arrivals(list) *)

Section ArrivalsClass.

Context {Arrival : Type} `{Py.Display Arrival}.

(** An [Arrivals] object is its list of elements. *)
Definition Arrivals : Type := list Arrival.

(** [__init__]: [super().__init__()] gives the empty list, which is
    then extended with the argument. *)
Definition Arrivals_init (arrivals : list Arrival) : Arrivals :=
  let self : Arrivals := [] in
  Py.extend self arrivals.

(** [__str__]:
    ["{count} arrivals\n\t{arrivals}".format(count=len(self),
       arrivals="\n\t".join([str(_i) for _i in self]))]. *)
Definition Arrivals_str (self : Arrivals) : string :=
  let count := Py.str_of_int (List.length self) in
  let arrivals := Py.join (Py.NL ++ Py.TAB) (map Py.str self) in
  count ++ " arrivals" ++ Py.NL ++ Py.TAB ++ arrivals.

(** [__repr__]: ["[%s]" % (", ".join([repr(_i) for _i in self]))]. *)
Definition Arrivals_repr (self : Arrivals) : string :=
  "[" ++ Py.join ", " (map Py.repr self) ++ "]".

End ArrivalsClass.

Arguments Arrivals Arrival : clear implicits.

(* ------------------------------------------------------------------ *)
(** ** class TauPyModel *)

(** Outcome of a call: a value, or a raised exception. *)
Inductive result (A : Type) : Type :=
| Ok (a : A)
| Raise (e : Py.exn).

Arguments Ok {A} a.
Arguments Raise {A} e.

Section Facade.

(** The world the collaborators act on (the model directory, the
    console of the engines), the loaded tau model, the numbers given
    as depth, distance and coordinates, and the arrival records. *)
Variables World TauModel Num Arrival : Type.

(** [self.model.sMod.vMod.modelName]. *)
Variable modelName : TauModel -> string.

(** [os.path.dirname(os.path.abspath(inspect.getfile(
    inspect.currentframe())))]: the directory of the module. *)
Variable module_dir : string.

(** Arguments of [TauP_Time(phase_list, modelName, depth, degrees,
    coordinate_list)]. *)
Record TimeArgs : Type :=
  { time_phase_list : list string;
    time_modelName : string;
    time_depth : Num;
    time_degrees : option Num;
    time_coordinate_list : option (list Num) }.

(** Arguments of [TauP_Pierce(phase_list, modelName, depth, degrees)]
    and of [TauP_Path(...)]. *)
Record DistArgs : Type :=
  { dist_phase_list : list string;
    dist_modelName : string;
    dist_depth : Num;
    dist_degrees : Num }.

(** An engine class: its constructor, its [run(print_output)] method,
    which updates the engine object, and its [arrivals] attribute. *)
Record EngineClass (Args : Type) : Type :=
  { Engine : Type;
    new : Args -> World -> result Engine * World;
    run : Engine -> bool -> World -> result Engine * World;
    arrivals : Engine -> list Arrival }.

(** The names imported at the top of the module. *)
Variable load_ext : string -> string -> bool -> World -> result TauModel * World.
Variable TauP_Create_main_ext : string -> string -> World -> result unit * World.
Variable TauP_Time : EngineClass TimeArgs.
Variable TauP_Pierce : EngineClass DistArgs.
Variable TauP_Path : EngineClass DistArgs.

(** What the facade does to its surroundings, in program order. *)
Inductive Event : Type :=
| EvLoad (model path : string) (verbose : bool)
| EvPrint (line : string)
| EvCreate (model_file_name output_dir : string)
| EvTime (args : TimeArgs)
| EvPierce (args : DistArgs)
| EvPath (args : DistArgs)
| EvRun (print_output : bool).

Record State : Type :=
  { world : World;
    log : list Event }.

(** Computations: state passing with exceptions. *)
Definition M (A : Type) : Type := State -> result A * State.

Definition ret {A : Type} (a : A) : M A := fun s => (Ok a, s).

Definition bind {A B : Type} (c : M A) (k : A -> M B) : M B :=
  fun s =>
    match c s with
    | (Ok a, s') => k a s'
    | (Raise e, s') => (Raise e, s')
    end.

Notation "x <- c ;; k" := (bind c (fun x => k))
  (at level 61, c at next level, right associativity).
Notation "c ;;; k" := (bind c (fun _ => k))
  (at level 61, right associativity).

(** [try: body / except FileNotFoundError: handler]. *)
Definition try_except_FileNotFoundError {A : Type}
    (body handler : M A) : M A :=
  fun s =>
    match body s with
    | (Ok a, s') => (Ok a, s')
    | (Raise e, s') =>
        if Py.is_FileNotFoundError e then handler s' else (Raise e, s')
    end.

(** A call to a collaborator: logged, then performed on the world. *)
Definition call {A : Type} (ev : Event)
    (f : World -> result A * World) : M A :=
  fun s =>
    let (r, w) := f (world s) in
    (r, {| world := w; log := (log s ++ [ev])%list |}).

Definition load (model path : string) (verbose : bool) : M TauModel :=
  call (EvLoad model path verbose) (load_ext model path verbose).

Definition TauP_Create_main (model_file_name output_dir : string) : M unit :=
  call (EvCreate model_file_name output_dir)
       (TauP_Create_main_ext model_file_name output_dir).

Definition print (line : string) : M unit :=
  fun s => (Ok tt, {| world := world s; log := (log s ++ [EvPrint line])%list |}).

(** The facade object: its two attributes. *)
Record TauPyModel : Type :=
  { self_model : TauModel;
    self_verbose : bool }.

(** [create_taup_model(model_name, output_dir)] (static method): the
    value of its local [model_file_name], then the call. *)
Definition model_file_name (model_name : string) : string :=
  if Py.contains "." model_name then model_name
  else model_name ++ ".tvel".

Definition create_taup_model (model_name output_dir : string) : M unit :=
  TauP_Create_main (model_file_name model_name) output_dir.

Definition taup_model_path : string :=
  Py.path_join (Py.path_join module_dir "data") "taup_models".

(** The line printed by the [except] branch of [__init__]; the three
    literals are adjacent in the source, so no blank separates
    [taup_models] from [directory]. *)
Definition not_found_message (model : string) : string :=
  "A " ++ model ++ ".taup model file was not found in the taup_models"
       ++ "directory, will try to create one. "
       ++ "This may take a while.".

(** [__init__(self, model, verbose)]. *)
Definition TauPyModel_init (model : string) (verbose : bool) : M TauPyModel :=
  m <- try_except_FileNotFoundError
         (load model taup_model_path verbose)
         (print (not_found_message model) ;;;
          create_taup_model model taup_model_path ;;;
          load model taup_model_path verbose) ;;
  ret {| self_model := m; self_verbose := verbose |}.

(** [TauPyModel(model="iasp91", verbose=False)]: an argument left out
    takes the default of the signature. *)
Definition TauPyModel_new (model : option string) (verbose : option bool)
    : M TauPyModel :=
  TauPyModel_init
    (match model with Some m => m | None => "iasp91" end)
    (match verbose with Some v => v | None => false end).

(** Construction and run of an engine, then its [arrivals]. *)
Definition run_engine {Args : Type} (cls : EngineClass Args)
    (ev : Event) (args : Args) (print_output : bool) : M (Arrivals Arrival) :=
  e <- call ev (new cls args) ;;
  e' <- call (EvRun print_output) (run cls e print_output) ;;
  ret (Arrivals_init (arrivals cls e')).

(** [phase_list if phase_list is not None else ["ttall"]]. *)
Definition phase_list_or_default (phase_list : option (list string))
    : list string :=
  match phase_list with
  | Some l => l
  | None => ["ttall"]
  end.

(** The three queries.  A method receives [self] and hands it back
    with its answer; the facade is no part of the world the engines act
    on, they are given the name of its model only.  [phase_list],
    [distance_in_degree] of [get_travel_time] and [coordinate_list] are
    [None] when left out. *)
Definition get_travel_time (self : TauPyModel) (source_depth_in_km : Num)
    (distance_in_degree : option Num) (phase_list : option (list string))
    (print_output : bool) (coordinate_list : option (list Num))
    : M (TauPyModel * Arrivals Arrival) :=
  let phase_list := phase_list_or_default phase_list in
  let args := {| time_phase_list := phase_list;
                 time_modelName := modelName (self_model self);
                 time_depth := source_depth_in_km;
                 time_degrees := distance_in_degree;
                 time_coordinate_list := coordinate_list |} in
  r <- run_engine TauP_Time (EvTime args) args print_output ;;
  ret (self, r).

Definition get_pierce_points (self : TauPyModel) (source_depth_in_km : Num)
    (distance_in_degree : Num) (phase_list : option (list string))
    (print_output : bool) : M (TauPyModel * Arrivals Arrival) :=
  let phase_list := phase_list_or_default phase_list in
  let args := {| dist_phase_list := phase_list;
                 dist_modelName := modelName (self_model self);
                 dist_depth := source_depth_in_km;
                 dist_degrees := distance_in_degree |} in
  r <- run_engine TauP_Pierce (EvPierce args) args print_output ;;
  ret (self, r).

Definition get_ray_paths (self : TauPyModel) (source_depth_in_km : Num)
    (distance_in_degree : Num) (phase_list : option (list string))
    (print_output : bool) : M (TauPyModel * Arrivals Arrival) :=
  let phase_list := phase_list_or_default phase_list in
  let args := {| dist_phase_list := phase_list;
                 dist_modelName := modelName (self_model self);
                 dist_depth := source_depth_in_km;
                 dist_degrees := distance_in_degree |} in
  r <- run_engine TauP_Path (EvPath args) args print_output ;;
  ret (self, r).

(** Counting in a log. *)
Definition is_load (ev : Event) : bool :=
  match ev with EvLoad _ _ _ => true | _ => false end.

Definition is_create (ev : Event) : bool :=
  match ev with EvCreate _ _ => true | _ => false end.

Definition is_print (ev : Event) : bool :=
  match ev with EvPrint _ => true | _ => false end.

Definition count (p : Event -> bool) (l : list Event) : nat :=
  List.length (filter p l).

(** A query [q] made on [self] hands the same facade back and calls
    neither [load] nor [TauP_Create.main]. *)
Definition leaves_facade (self : TauPyModel)
    (q : M (TauPyModel * Arrivals Arrival)) : Prop :=
  forall s,
    count is_load (log (snd (q s))) = count is_load (log s) /\
    count is_create (log (snd (q s))) = count is_create (log s) /\
    match fst (q s) with
    | Ok (self', _) => self' = self
    | Raise _ => True
    end.

(** The model name an engine is constructed with. *)
Definition names_model (name : string) (ev : Event) : Prop :=
  match ev with
  | EvTime args => time_modelName args = name
  | EvPierce args | EvPath args => dist_modelName args = name
  | _ => False
  end.

(** A query [q] starts by constructing an engine for the model called
    [name]. *)
Definition asks_for (name : string)
    (q : M (TauPyModel * Arrivals Arrival)) : Prop :=
  forall s, exists ev tl,
    log (snd (q s)) = (log s ++ ev :: tl)%list /\ names_model name ev.

End Facade.

Arguments EvLoad {Num} model path verbose.
Arguments EvPrint {Num} line.
Arguments EvCreate {Num} model_file_name output_dir.
Arguments EvRun {Num} print_output.
Arguments is_load {Num} ev.
Arguments is_create {Num} ev.
Arguments is_print {Num} ev.

(* ------------------------------------------------------------------ *)
(** ** A small installation to run the facade on

    A model directory is the list of the artifacts it holds.  [load]
    finds an artifact by name, rejects the artifact named [corrupt] and
    reports every other name as not found.  [TauP_Create.main] knows two
    velocity profiles: [iasp91.tvel], from which it writes the artifact
    [iasp91], and [ghost.tvel], from which it writes nothing; any other
    file cannot be read. *)

Module Sample.

Definition World : Type := list string.
Definition TauModel : Type := string.
Definition Arrival : Type := string.

Definition modelName (m : TauModel) : string := m.
Definition module_dir : string := "/opt/taupy".

#[export] Instance Arrival_Display : Py.Display Arrival :=
  {| Py.str := fun a => a ++ " arrival";
     Py.repr := fun a => "<" ++ a ++ ">" |}.

Definition load_ext (model path : string) (verbose : bool) (w : World)
    : result TauModel * World :=
  if String.eqb model "corrupt" then
    (Raise (Py.OtherError "ValueError" "bad artifact"), w)
  else if existsb (String.eqb model) w then (Ok model, w)
  else (Raise (Py.FileNotFoundError model), w).

Definition TauP_Create_main_ext (model_file_name output_dir : string)
    (w : World) : result unit * World :=
  if String.eqb model_file_name "iasp91.tvel" then (Ok tt, "iasp91" :: w)
  else if String.eqb model_file_name "ghost.tvel" then (Ok tt, w)
  else (Raise (Py.OtherError "IOError" model_file_name), w).

(** The engines answer with the requested phase names. *)
Definition TauP_Time : EngineClass World Arrival (TimeArgs Z) :=
  {| Engine := list string * list Arrival;
     new := fun args w => (Ok (time_phase_list args, []), w);
     run := fun e _ w => (Ok (fst e, fst e), w);
     arrivals := fun e => snd e |}.

Definition TauP_Dist : EngineClass World Arrival (DistArgs Z) :=
  {| Engine := list string * list Arrival;
     new := fun args w => (Ok (dist_phase_list args, []), w);
     run := fun e _ w => (Ok (fst e, fst e), w);
     arrivals := fun e => snd e |}.

Definition start (w : World) : State World Z :=
  {| world := w; log := [] |}.

Definition init : string -> bool -> M World Z (TauPyModel TauModel) :=
  TauPyModel_init module_dir load_ext TauP_Create_main_ext.

Definition facade : TauPyModel TauModel :=
  {| self_model := "iasp91"; self_verbose := false |}.

End Sample.

(** Engines that check what they are given: the constructor refuses an
    empty phase list, [run] refuses a negative source depth.  On a
    valid request they answer like the engines of [Sample]. *)

Module Faulty.

Definition TauP_Time
    : EngineClass Sample.World Sample.Arrival (TimeArgs Z) :=
  {| Engine := TimeArgs Z * list Sample.Arrival;
     new := fun args w =>
       match time_phase_list args with
       | [] => (Raise (Py.OtherError "ValueError" "no phase"), w)
       | _ => (Ok (args, []), w)
       end;
     run := fun e _ w =>
       if (time_depth (fst e) <? 0)%Z
       then (Raise (Py.OtherError "ValueError" "negative depth"), w)
       else (Ok (fst e, time_phase_list (fst e)), w);
     arrivals := fun e => snd e |}.

Definition TauP_Dist
    : EngineClass Sample.World Sample.Arrival (DistArgs Z) :=
  {| Engine := DistArgs Z * list Sample.Arrival;
     new := fun args w =>
       match dist_phase_list args with
       | [] => (Raise (Py.OtherError "ValueError" "no phase"), w)
       | _ => (Ok (args, []), w)
       end;
     run := fun e _ w =>
       if (dist_depth (fst e) <? 0)%Z
       then (Raise (Py.OtherError "ValueError" "negative depth"), w)
       else (Ok (fst e, dist_phase_list (fst e)), w);
     arrivals := fun e => snd e |}.

End Faulty.

(* ------------------------------------------------------------------ *)
(** ** Reading a printed collection

    What a reader of [str(collection)] does with it: cut it at the
    newlines, look at the digits it starts with. *)

(** [s.split(c)] for a separator [c] of one character. *)
Fixpoint split_on (c : ascii) (s : string) : list string :=
  match s with
  | EmptyString => [""]
  | String d s' =>
      if Ascii.eqb d c then "" :: split_on c s'
      else match split_on c s' with
           | x :: r => String d x :: r
           | [] => [String d ""]
           end
  end.

(** [c.isdigit()] on ASCII, and [s] made of digits only. *)
Definition is_digit (c : ascii) : bool :=
  ((48 <=? nat_of_ascii c)%nat && (nat_of_ascii c <=? 57)%nat)%bool.

Fixpoint all_digits (s : string) : bool :=
  match s with
  | EmptyString => true
  | String c s' => (is_digit c && all_digits s')%bool
  end.

(** The newline character. *)
Definition newline : ascii := ascii_of_nat 10.

(* ------------------------------------------------------------------ *)
(** * Properties *)

(** ** Strings and lists *)

Lemma append_assoc (a b c : string) : (a ++ b) ++ c = a ++ b ++ c.
Proof.
  induction a as [|ch a IH]; simpl; [reflexivity | now rewrite IH].
Qed.

Lemma prefix_append (a b : string) : String.prefix a (a ++ b) = true.
Proof.
  induction a as [|ch a IH]; simpl.
  - now destruct b.
  - destruct (ascii_dec ch ch) as [_|ne]; [exact IH | now elim ne].
Qed.

Lemma prefix_empty (s : string) : String.prefix "" s = true.
Proof. now destruct s. Qed.

Lemma extend_app (A : Type) (it self : list A) :
  Py.extend self it = (self ++ it)%list.
Proof.
  unfold Py.extend.
  revert self; induction it as [|x it IH]; intros self; simpl.
  - now rewrite app_nil_r.
  - rewrite IH, <- app_assoc. reflexivity.
Qed.

(** [sub in s] with a one-character [sub] is membership of that
    character. *)
Lemma contains_char (c : ascii) (s : string) :
  Py.contains (String c "") s = true <-> In c (list_ascii_of_string s).
Proof.
  induction s as [|d s IH]; simpl.
  - split; [discriminate | tauto].
  - destruct (ascii_dec c d) as [e|ne].
    + rewrite prefix_empty. split; [intros _; left; now symmetry | reflexivity].
    + rewrite IH. split; [now right | intros [e|i]; [now elim ne | exact i]].
Qed.

Lemma contains_char_false (c : ascii) (s : string) :
  Py.contains (String c "") s = false <-> ~ In c (list_ascii_of_string s).
Proof.
  rewrite <- contains_char. destruct (Py.contains _ s); split; intros; congruence.
Qed.

(** ** Arrivals *)

Section ArrivalsProperties.

Context {Arrival : Type} `{Py.Display Arrival}.

Lemma Arrivals_init_id (arrivals : list Arrival) :
  Arrivals_init arrivals = arrivals.
Proof. unfold Arrivals_init. now rewrite extend_app. Qed.

(** C5.  The collection built from a sequence of arrivals is that
    sequence: same length, same element at every index (hence same
    order), same members; nothing is dropped, moved or merged. *)
Theorem Arrivals_init_preserves (arrivals : list Arrival) :
  Arrivals_init arrivals = arrivals /\
  List.length (Arrivals_init arrivals) = List.length arrivals /\
  (forall i, nth_error (Arrivals_init arrivals) i = nth_error arrivals i) /\
  (forall a, In a (Arrivals_init arrivals) <-> In a arrivals).
Proof.
  rewrite Arrivals_init_id. repeat split; auto.
Qed.

(** The tab-indented lines of the elements, joined by newlines, are
    the ["\n\t"]-join of the elements behind one tab. *)
Lemma join_indented (a : Arrival) (l : list Arrival) :
  Py.TAB ++ Py.join (Py.NL ++ Py.TAB) (map Py.str (a :: l)) =
  Py.join Py.NL (map (fun x => Py.TAB ++ Py.str x) (a :: l)).
Proof.
  unfold Py.join. revert a; induction l as [|b l IH]; intros a.
  - reflexivity.
  - change (map Py.str (a :: b :: l)) with (Py.str a :: map Py.str (b :: l)).
    change (map (fun x => Py.TAB ++ Py.str x) (a :: b :: l))
      with ((Py.TAB ++ Py.str a) :: map (fun x => Py.TAB ++ Py.str x) (b :: l)).
    cbn [String.concat map]. cbn [String.concat map] in IH.
    specialize (IH b).
    destruct l as [|c l].
    + cbn [map]. rewrite !append_assoc. reflexivity.
    + cbn [map] in *. rewrite <- IH. rewrite !append_assoc. reflexivity.
Qed.

(** C6.  [str] of a collection starts with the count and the text
    [" arrivals"]; it is made of lines, the first being that header
    and then one line per element, each a tab followed by the [str]
    of the element (a lone tab when there is no element).  [repr] is
    the [", "]-join of the [repr] of the elements between brackets. *)
Theorem Arrivals_display (self : Arrivals Arrival) :
  let header := Py.str_of_int (List.length self) ++ " arrivals" in
  String.prefix header (Arrivals_str self) = true /\
  Arrivals_str self =
    Py.join Py.NL
      (header :: match self with
                 | [] => [Py.TAB]
                 | _ => map (fun a => Py.TAB ++ Py.str a) self
                 end) /\
  Arrivals_repr self = "[" ++ Py.join ", " (map Py.repr self) ++ "]".
Proof.
  cbv zeta. split; [|split].
  - unfold Arrivals_str. rewrite <- append_assoc. apply prefix_append.
  - destruct self as [|a l].
    + unfold Arrivals_str. cbn [map Py.join String.concat List.length].
      rewrite !append_assoc. reflexivity.
    + unfold Arrivals_str.
      rewrite join_indented.
      unfold Py.join at 2.
      change (String.concat Py.NL (?h :: map ?f (a :: l)))
        with (h ++ Py.NL ++ String.concat Py.NL (map f (a :: l))).
      rewrite !append_assoc. reflexivity.
  - reflexivity.
Qed.

(** C10.  For no arrival at all, [str] is ["0 arrivals"], a newline
    and one tab, and [repr] is ["[]"]. *)
Theorem Arrivals_empty_display :
  Arrivals_str (Arrivals_init (@nil Arrival)) =
    "0 arrivals" ++ String "010" (String "009" "") /\
  Arrivals_repr (Arrivals_init (@nil Arrival)) = "[]".
Proof. split; reflexivity. Qed.

End ArrivalsProperties.

(** ** The facade *)

Lemma count_app (Num : Type) (p : Event Num -> bool) (l1 l2 : list (Event Num)) :
  count p (l1 ++ l2)%list = count p l1 + count p l2.
Proof. unfold count. now rewrite filter_app, length_app. Qed.

Section FacadeProperties.

Variables World TauModel Num Arrival : Type.
Variable modelName : TauModel -> string.
Variable module_dir : string.
Variable load_ext : string -> string -> bool -> World -> result TauModel * World.
Variable TauP_Create_main_ext : string -> string -> World -> result unit * World.
Variable TauP_Time : EngineClass World Arrival (TimeArgs Num).
Variable TauP_Pierce : EngineClass World Arrival (DistArgs Num).
Variable TauP_Path : EngineClass World Arrival (DistArgs Num).

Local Abbreviation path := (taup_model_path module_dir).
Local Abbreviation init := (@TauPyModel_init World TauModel Num module_dir load_ext TauP_Create_main_ext).
Local Abbreviation construct := (@TauPyModel_new World TauModel Num module_dir load_ext TauP_Create_main_ext).
Local Abbreviation travel_time := (get_travel_time modelName TauP_Time).
Local Abbreviation pierce_points := (get_pierce_points modelName TauP_Pierce).
Local Abbreviation ray_paths := (get_ray_paths modelName TauP_Path).
Local Abbreviation St := (State World Num).

(** *** Construction, path by path *)

Lemma init_loaded model verbose (s : St) m w1 :
  load_ext model path verbose (world s) = (Ok m, w1) ->
  init model verbose s =
    (Ok {| self_model := m; self_verbose := verbose |},
     {| world := w1; log := (log s ++ [EvLoad model path verbose])%list |}).
Proof.
  intros H. unfold TauPyModel_init, bind, try_except_FileNotFoundError, load, call, ret.
  now rewrite H.
Qed.

Lemma init_other_error model verbose (s : St) e w1 :
  load_ext model path verbose (world s) = (Raise e, w1) ->
  Py.is_FileNotFoundError e = false ->
  init model verbose s =
    (Raise e,
     {| world := w1; log := (log s ++ [EvLoad model path verbose])%list |}).
Proof.
  intros H He. unfold TauPyModel_init, bind, try_except_FileNotFoundError, load, call, ret.
  now rewrite H, He.
Qed.

Lemma init_build_failed model verbose (s : St) e w1 e' w2 :
  load_ext model path verbose (world s) = (Raise e, w1) ->
  Py.is_FileNotFoundError e = true ->
  TauP_Create_main_ext (model_file_name model) path w1 = (Raise e', w2) ->
  init model verbose s =
    (Raise e',
     {| world := w2;
        log := (log s ++ [EvLoad model path verbose;
                          EvPrint (not_found_message model);
                          EvCreate (model_file_name model) path])%list |}).
Proof.
  intros H He Hc.
  unfold TauPyModel_init, bind, try_except_FileNotFoundError, load, call, ret,
    print, create_taup_model, TauP_Create_main, call.
  rewrite H, He. cbn [world log]. rewrite Hc.
  rewrite <- !app_assoc. reflexivity.
Qed.

Lemma init_retried model verbose (s : St) e w1 u w2 r w3 :
  load_ext model path verbose (world s) = (Raise e, w1) ->
  Py.is_FileNotFoundError e = true ->
  TauP_Create_main_ext (model_file_name model) path w1 = (Ok u, w2) ->
  load_ext model path verbose w2 = (r, w3) ->
  init model verbose s =
    (match r with
     | Ok m => Ok {| self_model := m; self_verbose := verbose |}
     | Raise e2 => Raise e2
     end,
     {| world := w3;
        log := (log s ++ [EvLoad model path verbose;
                          EvPrint (not_found_message model);
                          EvCreate (model_file_name model) path;
                          EvLoad model path verbose])%list |}).
Proof.
  intros H He Hc Hl.
  unfold TauPyModel_init, bind, try_except_FileNotFoundError, load, call, ret,
    print, create_taup_model, TauP_Create_main, call.
  rewrite H, He. cbn [world log]. rewrite Hc. cbn [world log]. rewrite Hl.
  rewrite <- !app_assoc. destruct r; reflexivity.
Qed.

(** *** Queries *)

Lemma run_engine_log (Args : Type) (cls : EngineClass World Arrival Args)
    (ev : Event Num) (args : Args) (print_output : bool) (s : St) :
  exists tl,
    log (snd (run_engine cls ev args print_output s)) = (log s ++ ev :: tl)%list /\
    (tl = [] \/ tl = [EvRun print_output]).
Proof.
  unfold run_engine, bind, call, ret.
  destruct (new cls args (world s)) as [[e|x] w]; cbn [world log snd].
  - destruct (run cls e print_output w) as [[e'|x] w']; cbn [snd log];
      exists [EvRun print_output]; rewrite <- app_assoc; auto.
  - exists []; auto.
Qed.

(** When the engine is constructed and runs, the answer of a query is
    the [arrivals] of the engine after its run, as they are. *)
Lemma run_engine_arrivals (Args : Type) (cls : EngineClass World Arrival Args)
    (ev : Event Num) (args : Args) (print_output : bool) (s : St) e w e' w' :
  new cls args (world s) = (Ok e, w) ->
  run cls e print_output w = (Ok e', w') ->
  fst (run_engine cls ev args print_output s) = Ok (arrivals cls e').
Proof.
  intros Hnew Hrun. unfold run_engine, bind, call, ret.
  rewrite Hnew. cbn [world]. rewrite Hrun. cbn [fst].
  now rewrite Arrivals_init_id.
Qed.

Lemma bind_ret_snd (A B : Type) (c : M World Num A) (f : A -> B) (s : St) :
  snd (bind c (fun r => ret (f r)) s) = snd (c s).
Proof. unfold bind, ret. now destruct (c s) as [[a|e] s']. Qed.

Lemma bind_ret_fst (A B : Type) (c : M World Num A) (f : A -> B) (s : St) :
  fst (bind c (fun r => ret (f r)) s) =
  match fst (c s) with Ok r => Ok (f r) | Raise e => Raise e end.
Proof. unfold bind, ret. now destruct (c s) as [[a|e] s']. Qed.

Lemma query_leaves_facade (Args : Type) (cls : EngineClass World Arrival Args)
    (ev : Event Num) (args : Args) (print_output : bool)
    (self : TauPyModel TauModel) :
  is_load ev = false -> is_create ev = false ->
  leaves_facade self
    (bind (run_engine cls ev args print_output) (fun r => ret (self, r))).
Proof.
  intros Hl Hc s.
  destruct (run_engine_log cls ev args print_output s) as (tl & Hlog & Htl).
  assert (Hcount : forall p : Event Num -> bool,
             p ev = false -> p (EvRun print_output) = false ->
             count p (log s ++ ev :: tl)%list = count p (log s)).
  { intros p H1 H2. rewrite count_app. unfold count at 2. cbn [filter].
    rewrite H1. destruct Htl as [-> | ->]; cbn [filter];
      try rewrite H2; cbn [List.length]; lia. }
  rewrite bind_ret_snd, bind_ret_fst, Hlog.
  split; [|split].
  - now apply Hcount.
  - now apply Hcount.
  - now destruct (fst (run_engine cls ev args print_output s)).
Qed.

(** *** Construction *)

(** C1, as amended.  When the initial load raises
    [FileNotFoundError], construction prints the diagnostic and calls
    the builder once.  If the builder returns, the load is tried once
    more, nothing follows it, and its outcome is the outcome of the
    construction; if the builder raises, its exception is the outcome
    and no second load is made. *)
Theorem init_not_found_recovery model verbose (s : St) e w1 :
  load_ext model path verbose (world s) = (Raise e, w1) ->
  Py.is_FileNotFoundError e = true ->
  let attempt := [EvLoad model path verbose;
                  EvPrint (not_found_message model);
                  EvCreate (model_file_name model) path] in
  match TauP_Create_main_ext (model_file_name model) path w1 with
  | (Ok _, w2) =>
      init model verbose s =
        (match fst (load_ext model path verbose w2) with
         | Ok m => Ok {| self_model := m; self_verbose := verbose |}
         | Raise e2 => Raise e2
         end,
         {| world := snd (load_ext model path verbose w2);
            log := (log s ++ attempt ++ [EvLoad model path verbose])%list |}) /\
      count is_print (log (snd (init model verbose s))) =
        count is_print (log s) + 1 /\
      count is_create (log (snd (init model verbose s))) =
        count is_create (log s) + 1 /\
      count is_load (log (snd (init model verbose s))) =
        count is_load (log s) + 2
  | (Raise e', w2) =>
      init model verbose s =
        (Raise e', {| world := w2; log := (log s ++ attempt)%list |}) /\
      count is_print (log (snd (init model verbose s))) =
        count is_print (log s) + 1 /\
      count is_create (log (snd (init model verbose s))) =
        count is_create (log s) + 1 /\
      count is_load (log (snd (init model verbose s))) =
        count is_load (log s) + 1
  end.
Proof.
  intros H He attempt.
  destruct (TauP_Create_main_ext (model_file_name model) path w1)
    as [[u|e'] w2] eqn:Hc.
  - destruct (load_ext model path verbose w2) as [r w3] eqn:Hl.
    rewrite (init_retried s H He Hc Hl). cbn [fst snd log].
    rewrite !count_app. repeat split.
  - rewrite (init_build_failed s H He Hc). cbn [fst snd log].
    rewrite !count_app. repeat split.
Qed.

(** C3.  Suppose the initial load raises [e].  If [e] is not a
    [FileNotFoundError], construction raises [e] itself after that
    single load and the builder is not called.  If it is, the builder
    returns and the second load raises [e2], construction raises [e2]
    itself and does nothing after that second load. *)
Theorem init_errors_propagate model verbose (s : St) e w1 :
  load_ext model path verbose (world s) = (Raise e, w1) ->
  (Py.is_FileNotFoundError e = false ->
     init model verbose s =
       (Raise e,
        {| world := w1; log := (log s ++ [EvLoad model path verbose])%list |}) /\
     count is_create (log (snd (init model verbose s))) =
       count is_create (log s)) /\
  (Py.is_FileNotFoundError e = true ->
     forall u w2 e2 w3,
       TauP_Create_main_ext (model_file_name model) path w1 = (Ok u, w2) ->
       load_ext model path verbose w2 = (Raise e2, w3) ->
       init model verbose s =
         (Raise e2,
          {| world := w3;
             log := (log s ++ [EvLoad model path verbose;
                               EvPrint (not_found_message model);
                               EvCreate (model_file_name model) path;
                               EvLoad model path verbose])%list |})).
Proof.
  intros H. split.
  - intros He. rewrite (init_other_error s H He). cbn [snd log].
    rewrite count_app. split; [reflexivity | cbn; lia].
  - intros He u w2 e2 w3 Hc Hl.
    now rewrite (init_retried s H He Hc Hl).
Qed.

(** C4.  [create_taup_model] calls the builder with the model name
    itself when a ['.'] occurs in it, with the model name followed by
    [".tvel"] when none does, and with its [output_dir] as it is. *)
Theorem create_taup_model_file_name model_name output_dir (s : St) :
  (In "."%char (list_ascii_of_string model_name) ->
     create_taup_model TauP_Create_main_ext model_name output_dir s =
     call (EvCreate model_name output_dir)
          (TauP_Create_main_ext model_name output_dir) s) /\
  (~ In "."%char (list_ascii_of_string model_name) ->
     create_taup_model TauP_Create_main_ext model_name output_dir s =
     call (EvCreate (model_name ++ ".tvel") output_dir)
          (TauP_Create_main_ext (model_name ++ ".tvel") output_dir) s).
Proof.
  unfold create_taup_model, TauP_Create_main, model_file_name.
  split; intros Hdot.
  - apply contains_char in Hdot. now rewrite Hdot.
  - apply contains_char_false in Hdot. now rewrite Hdot.
Qed.

(** C9.  A facade constructed without a model name loads ["iasp91"],
    one constructed without [verbose] loads with [verbose] off and
    keeps it off. *)
Theorem TauPyModel_defaults (s : St) :
  construct None None s = init "iasp91" false s /\
  (forall v, construct None (Some v) s = init "iasp91" v s) /\
  (forall m, construct (Some m) None s = init m false s) /\
  (exists tl, log (snd (construct None None s)) =
              (log s ++ EvLoad "iasp91" path false :: tl)%list) /\
  match fst (construct None None s) with
  | Ok self => self_verbose self = false
  | Raise _ => True
  end.
Proof.
  repeat split.
  - unfold TauPyModel_new, TauPyModel_init, bind, try_except_FileNotFoundError,
      load, call, ret, print, create_taup_model, TauP_Create_main, call.
    destruct (load_ext "iasp91" path false (world s)) as [[m|e] w1];
      cbn [snd log world]; [now exists [] |].
    destruct (Py.is_FileNotFoundError e); cbn [snd log world]; [| now exists []].
    destruct (TauP_Create_main_ext _ _ w1) as [[u|e'] w2]; cbn [snd log world].
    + destruct (load_ext "iasp91" path false w2) as [[m|e2] w3];
        cbn [snd log world]; rewrite <- !app_assoc; eexists; reflexivity.
    + rewrite <- !app_assoc; eexists; reflexivity.
  - unfold TauPyModel_new, TauPyModel_init.
    rewrite bind_ret_fst.
    now destruct (fst (try_except_FileNotFoundError _ _ s)).
Qed.

(** *** Phase lists *)

Lemma travel_time_request self depth degrees phase_list print_output
    coordinate_list (s : St) :
  exists tl,
    log (snd (travel_time self depth degrees phase_list print_output
                          coordinate_list s)) =
    (log s ++ EvTime {| time_phase_list := phase_list_or_default phase_list;
                        time_modelName := modelName (self_model self);
                        time_depth := depth;
                        time_degrees := degrees;
                        time_coordinate_list := coordinate_list |} :: tl)%list.
Proof.
  unfold get_travel_time. rewrite bind_ret_snd.
  destruct (run_engine_log TauP_Time
              (EvTime {| time_phase_list := phase_list_or_default phase_list;
                         time_modelName := modelName (self_model self);
                         time_depth := depth;
                         time_degrees := degrees;
                         time_coordinate_list := coordinate_list |})
              {| time_phase_list := phase_list_or_default phase_list;
                 time_modelName := modelName (self_model self);
                 time_depth := depth;
                 time_degrees := degrees;
                 time_coordinate_list := coordinate_list |}
              print_output s) as (tl & Hlog & _).
  now exists tl.
Qed.

Lemma pierce_points_request self depth degrees phase_list print_output (s : St) :
  exists tl,
    log (snd (pierce_points self depth degrees phase_list print_output s)) =
    (log s ++ EvPierce {| dist_phase_list := phase_list_or_default phase_list;
                          dist_modelName := modelName (self_model self);
                          dist_depth := depth;
                          dist_degrees := degrees |} :: tl)%list.
Proof.
  unfold get_pierce_points. rewrite bind_ret_snd.
  destruct (run_engine_log TauP_Pierce
              (EvPierce {| dist_phase_list := phase_list_or_default phase_list;
                           dist_modelName := modelName (self_model self);
                           dist_depth := depth;
                           dist_degrees := degrees |})
              {| dist_phase_list := phase_list_or_default phase_list;
                 dist_modelName := modelName (self_model self);
                 dist_depth := depth;
                 dist_degrees := degrees |}
              print_output s) as (tl & Hlog & _).
  now exists tl.
Qed.

Lemma ray_paths_request self depth degrees phase_list print_output (s : St) :
  exists tl,
    log (snd (ray_paths self depth degrees phase_list print_output s)) =
    (log s ++ EvPath {| dist_phase_list := phase_list_or_default phase_list;
                        dist_modelName := modelName (self_model self);
                        dist_depth := depth;
                        dist_degrees := degrees |} :: tl)%list.
Proof.
  unfold get_ray_paths. rewrite bind_ret_snd.
  destruct (run_engine_log TauP_Path
              (EvPath {| dist_phase_list := phase_list_or_default phase_list;
                         dist_modelName := modelName (self_model self);
                         dist_depth := depth;
                         dist_degrees := degrees |})
              {| dist_phase_list := phase_list_or_default phase_list;
                 dist_modelName := modelName (self_model self);
                 dist_depth := depth;
                 dist_degrees := degrees |}
              print_output s) as (tl & Hlog & _).
  now exists tl.
Qed.

(** With the phase list left out, each of the three queries asks its
    engine for [["ttall"]]. *)
Lemma omitted_phase_list_defaults self depth degrees print_output
    coordinate_list (s : St) :
  (exists tl,
     log (snd (travel_time self depth (Some degrees) None print_output
                           coordinate_list s)) =
     (log s ++ EvTime {| time_phase_list := ["ttall"];
                         time_modelName := modelName (self_model self);
                         time_depth := depth;
                         time_degrees := Some degrees;
                         time_coordinate_list := coordinate_list |} :: tl)%list) /\
  (exists tl,
     log (snd (pierce_points self depth degrees None print_output s)) =
     (log s ++ EvPierce {| dist_phase_list := ["ttall"];
                           dist_modelName := modelName (self_model self);
                           dist_depth := depth;
                           dist_degrees := degrees |} :: tl)%list) /\
  (exists tl,
     log (snd (ray_paths self depth degrees None print_output s)) =
     (log s ++ EvPath {| dist_phase_list := ["ttall"];
                         dist_modelName := modelName (self_model self);
                         dist_depth := depth;
                         dist_degrees := degrees |} :: tl)%list).
Proof.
  split; [|split].
  - apply (travel_time_request self depth (Some degrees) None).
  - apply (pierce_points_request self depth degrees None).
  - apply (ray_paths_request self depth degrees None).
Qed.

(** C2, at the empty phase list.  Given [[]], each of the three
    queries asks its engine for [[]]: the empty list is not [None] and
    is not replaced by [["ttall"]]. *)
Theorem empty_phase_list_not_defaulted self depth degrees print_output
    coordinate_list (s : St) :
  phase_list_or_default (Some []) <> ["ttall"] /\
  (exists tl,
     log (snd (travel_time self depth (Some degrees) (Some []) print_output
                           coordinate_list s)) =
     (log s ++ EvTime {| time_phase_list := [];
                         time_modelName := modelName (self_model self);
                         time_depth := depth;
                         time_degrees := Some degrees;
                         time_coordinate_list := coordinate_list |} :: tl)%list) /\
  (exists tl,
     log (snd (pierce_points self depth degrees (Some []) print_output s)) =
     (log s ++ EvPierce {| dist_phase_list := [];
                           dist_modelName := modelName (self_model self);
                           dist_depth := depth;
                           dist_degrees := degrees |} :: tl)%list) /\
  (exists tl,
     log (snd (ray_paths self depth degrees (Some []) print_output s)) =
     (log s ++ EvPath {| dist_phase_list := [];
                         dist_modelName := modelName (self_model self);
                         dist_depth := depth;
                         dist_degrees := degrees |} :: tl)%list).
Proof.
  split; [discriminate | split; [|split]].
  - apply (travel_time_request self depth (Some degrees) (Some [])).
  - apply (pierce_points_request self depth degrees (Some [])).
  - apply (ray_paths_request self depth degrees (Some [])).
Qed.

(** C7.  [get_travel_time] without a phase list and with
    [phase_list=["ttall"]] are the same computation: from any state
    they make the same request, end in the same state and give the
    same outcome. *)
Theorem travel_time_default_equivalence self depth degrees print_output
    coordinate_list (s : St) :
  travel_time self depth degrees None print_output coordinate_list s =
  travel_time self depth degrees (Some ["ttall"]) print_output coordinate_list s /\
  (exists tl,
     log (snd (travel_time self depth degrees None print_output
                           coordinate_list s)) =
     (log s ++ EvTime {| time_phase_list := ["ttall"];
                         time_modelName := modelName (self_model self);
                         time_depth := depth;
                         time_degrees := degrees;
                         time_coordinate_list := coordinate_list |} :: tl)%list).
Proof.
  split; [reflexivity |].
  apply (travel_time_request self depth degrees None).
Qed.

(** *** The bound model *)

Lemma init_succeeded model verbose (s : St) self s' :
  init model verbose s = (Ok self, s') ->
  self_verbose self = verbose /\
  ((load_ext model path verbose (world s) = (Ok (self_model self), world s') /\
    log s' = (log s ++ [EvLoad model path verbose])%list) \/
   (exists e w1 u w2,
      load_ext model path verbose (world s) = (Raise e, w1) /\
      Py.is_FileNotFoundError e = true /\
      TauP_Create_main_ext (model_file_name model) path w1 = (Ok u, w2) /\
      load_ext model path verbose w2 = (Ok (self_model self), world s') /\
      log s' = (log s ++ [EvLoad model path verbose;
                          EvPrint (not_found_message model);
                          EvCreate (model_file_name model) path;
                          EvLoad model path verbose])%list)).
Proof.
  intros Hinit.
  destruct (load_ext model path verbose (world s)) as [[m|e] w1] eqn:H.
  - rewrite (init_loaded s H) in Hinit. inversion Hinit; subst; cbn.
    split; [reflexivity | left; split; reflexivity].
  - destruct (Py.is_FileNotFoundError e) eqn:He.
    + destruct (TauP_Create_main_ext (model_file_name model) path w1)
        as [[u|e'] w2] eqn:Hc.
      * destruct (load_ext model path verbose w2) as [[m|e2] w3] eqn:Hl.
        -- rewrite (init_retried s H He Hc Hl) in Hinit.
           inversion Hinit; subst; cbn.
           split; [reflexivity | right].
           exists e, w1, u, w2. repeat split; assumption.
        -- rewrite (init_retried s H He Hc Hl) in Hinit. discriminate.
      * rewrite (init_build_failed s H He Hc) in Hinit. discriminate.
    + rewrite (init_other_error s H He) in Hinit. discriminate.
Qed.

(** C8.  A facade that was constructed holds the model returned by
    the one load that succeeded during its construction, and the
    [verbose] it was given.  Each query made on it afterwards hands
    the facade back as it was, calls neither [load] nor the builder,
    and constructs its engine for the name of the bound model. *)
Theorem facade_model_bound_once model verbose (s : St) self s' :
  init model verbose s = (Ok self, s') ->
  self_verbose self = verbose /\
  ((load_ext model path verbose (world s) = (Ok (self_model self), world s') /\
    log s' = (log s ++ [EvLoad model path verbose])%list) \/
   (exists e w1 u w2,
      load_ext model path verbose (world s) = (Raise e, w1) /\
      Py.is_FileNotFoundError e = true /\
      TauP_Create_main_ext (model_file_name model) path w1 = (Ok u, w2) /\
      load_ext model path verbose w2 = (Ok (self_model self), world s') /\
      log s' = (log s ++ [EvLoad model path verbose;
                          EvPrint (not_found_message model);
                          EvCreate (model_file_name model) path;
                          EvLoad model path verbose])%list)) /\
  (forall depth degrees phase_list print_output coordinate_list,
     let q := travel_time self depth degrees phase_list print_output
                          coordinate_list in
     leaves_facade self q /\ asks_for (modelName (self_model self)) q) /\
  (forall depth degrees phase_list print_output,
     let q := pierce_points self depth degrees phase_list print_output in
     leaves_facade self q /\ asks_for (modelName (self_model self)) q) /\
  (forall depth degrees phase_list print_output,
     let q := ray_paths self depth degrees phase_list print_output in
     leaves_facade self q /\ asks_for (modelName (self_model self)) q).
Proof.
  intros Hinit.
  destruct (init_succeeded _ _ _ Hinit) as [Hv Hm].
  split; [exact Hv | split; [exact Hm |]].
  split; [|split]; intros; subst q; split.
  - now apply query_leaves_facade.
  - intros t.
    destruct (travel_time_request self depth degrees phase_list print_output
                coordinate_list t) as (tl & Hlog).
    eexists; exists tl; split; [exact Hlog | reflexivity].
  - now apply query_leaves_facade.
  - intros t.
    destruct (pierce_points_request self depth degrees phase_list print_output t)
      as (tl & Hlog).
    eexists; exists tl; split; [exact Hlog | reflexivity].
  - now apply query_leaves_facade.
  - intros t.
    destruct (ray_paths_request self depth degrees phase_list print_output t)
      as (tl & Hlog).
    eexists; exists tl; split; [exact Hlog | reflexivity].
Qed.
End FacadeProperties.

(* ------------------------------------------------------------------ *)
(** * The sample installation at work *)

Module SampleRuns.

Import Sample.

Local Abbreviation dir := (taup_model_path module_dir).

(** C1, as stated, fails where the builder raises: the model
    [nothere] has no artifact, so the initial load raises
    [FileNotFoundError]; the builder is called once and cannot read
    [nothere.tvel]; its [IOError] ends the construction and the load
    is not tried again. *)
Lemma init_build_error_no_retry :
  load_ext "nothere" dir true [] = (Raise (Py.FileNotFoundError "nothere"), []) /\
  Sample.init "nothere" true (start []) =
    (Raise (Py.OtherError "IOError" "nothere.tvel"),
     {| world := [];
        log := [EvLoad "nothere" dir true;
                EvPrint (not_found_message "nothere");
                EvCreate "nothere.tvel" dir] |}) /\
  count is_create (log (snd (Sample.init "nothere" true (start [])))) = 1 /\
  count is_load (log (snd (Sample.init "nothere" true (start [])))) <> 2.
Proof.
  repeat split. vm_compute. discriminate.
Qed.

(** C1, as amended, on the model [iasp91] in an empty directory: the
    builder writes the artifact and the second load finds it. *)
Lemma init_not_found_recovery_witness :
  load_ext "iasp91" dir false [] = (Raise (Py.FileNotFoundError "iasp91"), []) /\
  (Sample.init "iasp91" false (start []) =
     (Ok {| self_model := "iasp91"; self_verbose := false |},
      {| world := ["iasp91"];
         log := [EvLoad "iasp91" dir false;
                 EvPrint (not_found_message "iasp91");
                 EvCreate "iasp91.tvel" dir;
                 EvLoad "iasp91" dir false] |}) /\
   count is_print (log (snd (Sample.init "iasp91" false (start [])))) = 1 /\
   count is_create (log (snd (Sample.init "iasp91" false (start [])))) = 1 /\
   count is_load (log (snd (Sample.init "iasp91" false (start [])))) = 2).
Proof.
  split; [reflexivity |].
  apply (init_not_found_recovery module_dir load_ext TauP_Create_main_ext
           "iasp91" false (start []) (e := Py.FileNotFoundError "iasp91")
           (w1 := [])); reflexivity.
Defined.

(** C3 on the rejected artifact [corrupt], and on [ghost], whose
    build leaves no artifact behind. *)
Lemma init_errors_propagate_witness :
  Sample.init "corrupt" true (start []) =
    (Raise (Py.OtherError "ValueError" "bad artifact"),
     {| world := []; log := [EvLoad "corrupt" dir true] |}) /\
  Sample.init "ghost" true (start []) =
    (Raise (Py.FileNotFoundError "ghost"),
     {| world := [];
        log := [EvLoad "ghost" dir true;
                EvPrint (not_found_message "ghost");
                EvCreate "ghost.tvel" dir;
                EvLoad "ghost" dir true] |}).
Proof.
  split.
  - apply (init_errors_propagate module_dir load_ext TauP_Create_main_ext
             "corrupt" true (start [])
             (e := Py.OtherError "ValueError" "bad artifact") (w1 := []));
      reflexivity.
  - apply (init_errors_propagate module_dir load_ext TauP_Create_main_ext
             "ghost" true (start [])
             (e := Py.FileNotFoundError "ghost") (w1 := []) eq_refl)
      with (u := tt) (w2 := []); reflexivity.
Defined.

(** C4 on a name with a dot and on a name without. *)
Lemma create_taup_model_file_name_witness :
  log (snd (create_taup_model TauP_Create_main_ext "ak135.tvel" "out" (start [])))
    = [EvCreate "ak135.tvel" "out"] /\
  log (snd (create_taup_model TauP_Create_main_ext "iasp91" "out" (start [])))
    = [EvCreate "iasp91.tvel" "out"].
Proof.
  split.
  - rewrite (proj1 (create_taup_model_file_name TauP_Create_main_ext
                      "ak135.tvel" "out" (start []))).
    + reflexivity.
    + simpl. tauto.
  - rewrite (proj2 (create_taup_model_file_name TauP_Create_main_ext
                      "iasp91" "out" (start []))).
    + reflexivity.
    + simpl. intuition discriminate.
Defined.

(** C8 on the facade constructed over a directory that holds
    [iasp91]. *)
Lemma facade_model_bound_once_witness :
  Sample.init "iasp91" false (start ["iasp91"]) =
    (Ok facade, {| world := ["iasp91"]; log := [EvLoad "iasp91" dir false] |}) /\
  leaves_facade facade
    (get_travel_time modelName TauP_Time facade 10%Z (Some 20%Z) None false None) /\
  asks_for "iasp91"
    (get_ray_paths modelName TauP_Dist facade 10%Z 20%Z (Some ["P"; "S"]) false).
Proof.
  split; [reflexivity |].
  destruct (facade_model_bound_once modelName module_dir load_ext
              TauP_Create_main_ext TauP_Time TauP_Dist TauP_Dist
              "iasp91" false (start ["iasp91"])
              (self := facade)
              (s' := {| world := ["iasp91"]; log := [EvLoad "iasp91" dir false] |})
              eq_refl) as (_ & _ & Ht & _ & Hr).
  split.
  - apply (Ht 10%Z (Some 20%Z) None false None).
  - apply (Hr 10%Z 20%Z (Some ["P"; "S"]) false).
Defined.

(** C2 at work: an empty phase list reaches the travel-time engine as
    it is, and the engine is asked for no phase where the omitted list
    asks for ["ttall"]. *)
Lemma travel_time_empty_phase_list :
  log (snd (get_travel_time modelName TauP_Time facade 10%Z (Some 20%Z)
              (Some []) false None (start []))) =
    [EvTime {| time_phase_list := [];
               time_modelName := "iasp91";
               time_depth := 10%Z;
               time_degrees := Some 20%Z;
               time_coordinate_list := None |};
     EvRun false] /\
  log (snd (get_travel_time modelName TauP_Time facade 10%Z (Some 20%Z)
              None false None (start []))) =
    [EvTime {| time_phase_list := ["ttall"];
               time_modelName := "iasp91";
               time_depth := 10%Z;
               time_degrees := Some 20%Z;
               time_coordinate_list := None |};
     EvRun false].
Proof. split; reflexivity. Qed.

End SampleRuns.

(* ------------------------------------------------------------------ *)
(** * Further properties *)

(** ** Characters of a string *)

Lemma list_ascii_app (a b : string) :
  list_ascii_of_string (a ++ b) =
  (list_ascii_of_string a ++ list_ascii_of_string b)%list.
Proof.
  induction a as [|ch a IH]; simpl; [reflexivity | now rewrite IH].
Qed.

Lemma prefix_refl (s : string) : String.prefix s s = true.
Proof.
  induction s as [|ch s IH]; simpl; [reflexivity |].
  destruct (ascii_dec ch ch) as [_|ne]; [exact IH | now elim ne].
Qed.

Lemma split_on_whole (c : ascii) (s : string) :
  ~ In c (list_ascii_of_string s) -> split_on c s = [s].
Proof.
  induction s as [|d s IH]; simpl; intros Hc; [reflexivity |].
  destruct (Ascii.eqb_spec d c) as [->|ne]; [tauto |].
  rewrite IH; [reflexivity | tauto].
Qed.

Lemma split_on_first (c : ascii) (a b : string) :
  ~ In c (list_ascii_of_string a) ->
  split_on c (a ++ String c b) = a :: split_on c b.
Proof.
  induction a as [|d a IH]; simpl; intros Hc.
  - now rewrite Ascii.eqb_refl.
  - destruct (Ascii.eqb_spec d c) as [->|ne]; [tauto |].
    rewrite IH; [reflexivity | tauto].
Qed.

(** Cutting a join at its separator gives the parts back, when the
    separator occurs in none of them. *)
Lemma split_on_join (c : ascii) (x : string) (parts : list string) :
  (forall p, In p (x :: parts) -> ~ In c (list_ascii_of_string p)) ->
  split_on c (Py.join (String c "") (x :: parts)) = x :: parts.
Proof.
  unfold Py.join. revert x; induction parts as [|y parts IH]; intros x Hc.
  - apply split_on_whole, Hc. now left.
  - change (String.concat (String c "") (x :: y :: parts))
      with (x ++ String c (String.concat (String c "") (y :: parts))).
    rewrite split_on_first by (apply Hc; now left).
    rewrite IH; [reflexivity |].
    intros p Hp. apply Hc. now right.
Qed.

Lemma digits_of_uint (d : Decimal.uint) :
  all_digits (NilEmpty.string_of_uint d) = true.
Proof. induction d; simpl; auto. Qed.

Lemma all_digits_str_of_int (n : nat) : all_digits (Py.str_of_int n) = true.
Proof. apply digits_of_uint. Qed.

Lemma all_digits_not_in (c : ascii) (s : string) :
  is_digit c = false -> all_digits s = true ->
  ~ In c (list_ascii_of_string s).
Proof.
  intros Hc. induction s as [|d s IH]; simpl; [tauto |].
  intros Hd. apply andb_true_iff in Hd as [Hd Hs].
  intros [->|Hin]; [congruence | now apply IH].
Qed.

Lemma str_of_int_inj (n m : nat) :
  Py.str_of_int n = Py.str_of_int m -> n = m.
Proof.
  unfold Py.str_of_int. intros E.
  apply (f_equal NilEmpty.uint_of_string) in E.
  rewrite !NilEmpty.usu in E. injection E as E.
  now apply DecimalNat.Unsigned.to_uint_inj.
Qed.

(** Two runs of digits, each followed by a character that is no
    digit, are equal when the texts are. *)
Lemma digits_prefix_unique (c : ascii) (d1 d2 r1 r2 : string) :
  is_digit c = false ->
  all_digits d1 = true -> all_digits d2 = true ->
  d1 ++ String c r1 = d2 ++ String c r2 -> d1 = d2.
Proof.
  intros Hc. revert d2; induction d1 as [|a d1 IH]; intros [|b d2]; simpl;
    intros H1 H2 E.
  - reflexivity.
  - apply andb_true_iff in H2 as [H2 _]. injection E as -> _. congruence.
  - apply andb_true_iff in H1 as [H1 _]. injection E as -> _. congruence.
  - apply andb_true_iff in H1 as [_ H1]. apply andb_true_iff in H2 as [_ H2].
    injection E as -> E. f_equal. now apply IH.
Qed.

(** ** A printed collection, read back *)

Section ArrivalsReading.

Context {Arrival : Type} `{Py.Display Arrival}.

Lemma Arrivals_str_join (self : Arrivals Arrival) :
  Arrivals_str self =
  Py.join (String newline "")
    ((Py.str_of_int (List.length self) ++ " arrivals")
       :: match self with
          | [] => [Py.TAB]
          | _ => map (fun a => Py.TAB ++ Py.str a) self
          end).
Proof.
  change (String newline "") with Py.NL.
  destruct self as [|a l]; unfold Arrivals_str.
  - cbn [map Py.join String.concat List.length].
    rewrite !append_assoc. reflexivity.
  - rewrite join_indented. unfold Py.join at 2.
    change (String.concat Py.NL (?h :: map ?f (a :: l)))
      with (h ++ Py.NL ++ String.concat Py.NL (map f (a :: l))).
    rewrite !append_assoc. reflexivity.
Qed.

(** X9.  When the [str] of no element contains a newline, cutting
    [str(collection)] at the newlines gives the header and then one
    entry per element, in order, each a tab and the [str] of the
    element (a lone tab for the empty collection): one line more than
    elements, two lines for none. *)
Theorem Arrivals_str_lines (self : Arrivals Arrival) :
  (forall a, In a self -> ~ In newline (list_ascii_of_string (Py.str a))) ->
  split_on newline (Arrivals_str self) =
    (Py.str_of_int (List.length self) ++ " arrivals")
      :: match self with
         | [] => [Py.TAB]
         | _ => map (fun a => Py.TAB ++ Py.str a) self
         end /\
  List.length (split_on newline (Arrivals_str self)) =
    S (Nat.max 1 (List.length self)).
Proof.
  intros Hno.
  assert (E : split_on newline (Arrivals_str self) =
              (Py.str_of_int (List.length self) ++ " arrivals")
                :: match self with
                   | [] => [Py.TAB]
                   | _ => map (fun a => Py.TAB ++ Py.str a) self
                   end).
  { rewrite Arrivals_str_join. apply split_on_join.
    intros p [<-|Hp].
    - rewrite list_ascii_app. intros Hin. apply in_app_or in Hin as [Hin|Hin].
      + revert Hin. apply all_digits_not_in;
          [reflexivity | apply all_digits_str_of_int].
      + simpl in Hin. intuition discriminate.
    - destruct self as [|a l].
      + destruct Hp as [<-|[]]. simpl. intuition discriminate.
      + apply in_map_iff in Hp as (x & <- & Hx).
        rewrite list_ascii_app. intros Hin.
        apply in_app_or in Hin as [Hin|Hin].
        * simpl in Hin. intuition discriminate.
        * exact (Hno x Hx Hin). }
  split; [exact E |].
  rewrite E. destruct self as [|a l]; [reflexivity |].
  cbn [List.length]. rewrite length_map. cbn [List.length]. lia.
Qed.

(** X10.  The header tells the size: two collections of different
    lengths never have the same [str], whatever their elements print. *)
Theorem Arrivals_str_tells_size (a b : Arrivals Arrival) :
  List.length a <> List.length b -> Arrivals_str a <> Arrivals_str b.
Proof.
  intros Hne E. apply Hne, str_of_int_inj.
  unfold Arrivals_str in E.
  eapply (digits_prefix_unique " "%char);
    [reflexivity | apply all_digits_str_of_int | apply all_digits_str_of_int
    | exact E].
Qed.

End ArrivalsReading.

(** ** The facade, further *)

Section FacadeFurther.

Variables World TauModel Num Arrival : Type.
Variable modelName : TauModel -> string.
Variable module_dir : string.
Variable load_ext : string -> string -> bool -> World -> result TauModel * World.
Variable TauP_Create_main_ext : string -> string -> World -> result unit * World.
Variable TauP_Time : EngineClass World Arrival (TimeArgs Num).
Variable TauP_Pierce : EngineClass World Arrival (DistArgs Num).
Variable TauP_Path : EngineClass World Arrival (DistArgs Num).

Local Abbreviation path := (taup_model_path module_dir).
Local Abbreviation init := (@TauPyModel_init World TauModel Num module_dir load_ext TauP_Create_main_ext).
Local Abbreviation travel_time := (get_travel_time modelName TauP_Time).
Local Abbreviation pierce_points := (get_pierce_points modelName TauP_Pierce).
Local Abbreviation ray_paths := (get_ray_paths modelName TauP_Path).
Local Abbreviation St := (State World Num).
Local Abbreviation time_args self depth distance phase_list coordinate_list :=
  {| time_phase_list := phase_list_or_default phase_list;
     time_modelName := modelName (self_model self);
     time_depth := depth;
     time_degrees := distance;
     time_coordinate_list := coordinate_list |}.
Local Abbreviation dist_args self depth degrees phase_list :=
  {| dist_phase_list := phase_list_or_default phase_list;
     dist_modelName := modelName (self_model self);
     dist_depth := depth;
     dist_degrees := degrees |}.

(** *** Construction *)

(** X1.  The builder is called, and the diagnostic printed, exactly
    when the initial load raised [FileNotFoundError]: once each then,
    never otherwise. *)
Theorem init_builds_iff_not_found model verbose (s : St) :
  let builds :=
    match fst (load_ext model path verbose (world s)) with
    | Raise e => if Py.is_FileNotFoundError e then 1 else 0
    | Ok _ => 0
    end in
  count is_create (log (snd (init model verbose s))) =
    count is_create (log s) + builds /\
  count is_print (log (snd (init model verbose s))) =
    count is_print (log s) + builds.
Proof.
  cbv zeta.
  destruct (load_ext model path verbose (world s)) as [[m|e] w1] eqn:H;
    cbn [fst].
  - rewrite (init_loaded module_dir load_ext TauP_Create_main_ext model verbose s H). cbn [snd log]. rewrite !count_app. now split.
  - destruct (Py.is_FileNotFoundError e) eqn:He.
    + destruct (TauP_Create_main_ext (model_file_name model) path w1)
        as [[u|e'] w2] eqn:Hc.
      * destruct (load_ext model path verbose w2) as [r w3] eqn:Hl.
        rewrite (init_retried module_dir load_ext TauP_Create_main_ext model verbose s H He Hc Hl). cbn [snd log].
        rewrite !count_app. now split.
      * rewrite (init_build_failed module_dir load_ext TauP_Create_main_ext model verbose s H He Hc). cbn [snd log].
        rewrite !count_app. now split.
    + rewrite (init_other_error module_dir load_ext TauP_Create_main_ext model verbose s H He). cbn [snd log].
      rewrite !count_app. now split.
Qed.

(** X2.  Whatever the collaborators do, construction starts with a
    load and does at most three things after it: at most one more
    load, at most one build, as many diagnostics as builds.  All its
    loads have the same arguments, and it never touches an engine. *)
Theorem init_bounded_effort model verbose (s : St) :
  exists evs,
    log (snd (init model verbose s)) =
      (log s ++ EvLoad model path verbose :: evs)%list /\
    count is_load evs <= 1 /\
    count is_create evs <= 1 /\
    count is_print evs = count is_create evs /\
    (forall ev, In ev evs ->
       ev = EvLoad model path verbose \/
       ev = EvPrint (not_found_message model) \/
       ev = EvCreate (model_file_name model) path).
Proof.
  destruct (load_ext model path verbose (world s)) as [[m|e] w1] eqn:H.
  - exists []. rewrite (init_loaded module_dir load_ext TauP_Create_main_ext model verbose s H). cbn. intuition.
  - destruct (Py.is_FileNotFoundError e) eqn:He.
    + destruct (TauP_Create_main_ext (model_file_name model) path w1)
        as [[u|e'] w2] eqn:Hc.
      * destruct (load_ext model path verbose w2) as [r w3] eqn:Hl.
        exists [EvPrint (not_found_message model);
                EvCreate (model_file_name model) path;
                EvLoad model path verbose].
        rewrite (init_retried module_dir load_ext TauP_Create_main_ext model verbose s H He Hc Hl). cbn. intuition.
      * exists [EvPrint (not_found_message model);
                EvCreate (model_file_name model) path].
        rewrite (init_build_failed module_dir load_ext TauP_Create_main_ext model verbose s H He Hc). cbn. intuition.
    + exists []. rewrite (init_other_error module_dir load_ext TauP_Create_main_ext model verbose s H He). cbn. intuition.
Qed.

(** X3.  Construction raises nothing of its own: an exception that
    leaves it was raised by [load] or by the builder, called with the
    arguments of the construction, and the world is as that call left
    it. *)
Theorem init_raises_collaborator_errors_only model verbose (s : St) e s' :
  init model verbose s = (Raise e, s') ->
  (exists w0, load_ext model path verbose w0 = (Raise e, world s')) \/
  (exists w0, TauP_Create_main_ext (model_file_name model) path w0 =
              (Raise e, world s')).
Proof.
  intros Hinit.
  destruct (load_ext model path verbose (world s)) as [[m|e1] w1] eqn:H.
  - rewrite (init_loaded module_dir load_ext TauP_Create_main_ext model verbose s H) in Hinit. discriminate.
  - destruct (Py.is_FileNotFoundError e1) eqn:He.
    + destruct (TauP_Create_main_ext (model_file_name model) path w1)
        as [[u|e'] w2] eqn:Hc.
      * destruct (load_ext model path verbose w2) as [[m|e2] w3] eqn:Hl;
          rewrite (init_retried module_dir load_ext TauP_Create_main_ext model verbose s H He Hc Hl) in Hinit; [discriminate |].
        inversion Hinit; subst. left. now exists w2.
      * rewrite (init_build_failed module_dir load_ext TauP_Create_main_ext model verbose s H He Hc) in Hinit.
        inversion Hinit; subst. right. now exists w1.
    + rewrite (init_other_error module_dir load_ext TauP_Create_main_ext model verbose s H He) in Hinit.
      inversion Hinit; subst. left. now exists (world s).
Qed.

(** *** The file name given to the builder *)

(** X8.  The file name derived from a model name always contains a
    ['.'] and starts with the model name; deriving it again changes
    nothing, so [create_taup_model] on a derived file name makes the
    call it makes on the model name. *)
Theorem model_file_name_has_dot (model_name : string) :
  In "."%char (list_ascii_of_string (model_file_name model_name)) /\
  String.prefix model_name (model_file_name model_name) = true /\
  model_file_name (model_file_name model_name) = model_file_name model_name /\
  (forall output_dir (s : St),
     create_taup_model TauP_Create_main_ext (model_file_name model_name)
       output_dir s =
     create_taup_model TauP_Create_main_ext model_name output_dir s).
Proof.
  assert (Hdot : In "."%char (list_ascii_of_string (model_file_name model_name))).
  { unfold model_file_name. destruct (Py.contains "." model_name) eqn:E.
    - now apply contains_char in E.
    - rewrite list_ascii_app. apply in_or_app. right. simpl. tauto. }
  assert (Hidem : model_file_name (model_file_name model_name) =
                  model_file_name model_name).
  { apply contains_char in Hdot. unfold model_file_name at 1. now rewrite Hdot. }
  split; [exact Hdot | split; [| split; [exact Hidem |]]].
  - unfold model_file_name. destruct (Py.contains "." model_name).
    + apply prefix_refl.
    + apply prefix_append.
  - intros output_dir s. unfold create_taup_model. now rewrite Hidem.
Qed.

(** *** Queries and their engine *)

(** A query, outcome by outcome of its engine. *)
Lemma query_outcome (Args : Type) (cls : EngineClass World Arrival Args)
    (ev : Event Num) (args : Args) (print_output : bool)
    (self : TauPyModel TauModel) (s : St) :
  bind (run_engine cls ev args print_output) (fun r => ret (self, r)) s =
  match new cls args (world s) with
  | (Raise e, w) => (Raise e, {| world := w; log := (log s ++ [ev])%list |})
  | (Ok en, w) =>
      match run cls en print_output w with
      | (Raise e, w') =>
          (Raise e,
           {| world := w'; log := (log s ++ [ev; EvRun print_output])%list |})
      | (Ok en', w') =>
          (Ok (self, arrivals cls en'),
           {| world := w'; log := (log s ++ [ev; EvRun print_output])%list |})
      end
  end.
Proof.
  unfold run_engine, bind, call, ret.
  destruct (new cls args (world s)) as [[en|e] w]; cbn [world log];
    [| reflexivity].
  destruct (run cls en print_output w) as [[en'|e] w']; cbn [world log];
    rewrite <- app_assoc; [now rewrite Arrivals_init_id | reflexivity].
Qed.

(** X4.  When its engine is constructed and runs, a query constructs
    it once, in the world as it is, runs it once with the caller's
    [print_output] in the world the constructor left, and answers with
    the facade and the [arrivals] the engine has after the run, in the
    engine's order. *)
Theorem queries_answer_with_engine_arrivals self depth distance degrees
    phase_list print_output coordinate_list (s : St) :
  (forall en w en' w',
     new TauP_Time (time_args self depth distance phase_list coordinate_list)
         (world s) = (Ok en, w) ->
     run TauP_Time en print_output w = (Ok en', w') ->
     travel_time self depth distance phase_list print_output coordinate_list s =
       (Ok (self, arrivals TauP_Time en'),
        {| world := w';
           log := (log s ++
                   [EvTime (time_args self depth distance phase_list
                                      coordinate_list);
                    EvRun print_output])%list |})) /\
  (forall en w en' w',
     new TauP_Pierce (dist_args self depth degrees phase_list) (world s) =
       (Ok en, w) ->
     run TauP_Pierce en print_output w = (Ok en', w') ->
     pierce_points self depth degrees phase_list print_output s =
       (Ok (self, arrivals TauP_Pierce en'),
        {| world := w';
           log := (log s ++
                   [EvPierce (dist_args self depth degrees phase_list);
                    EvRun print_output])%list |})) /\
  (forall en w en' w',
     new TauP_Path (dist_args self depth degrees phase_list) (world s) =
       (Ok en, w) ->
     run TauP_Path en print_output w = (Ok en', w') ->
     ray_paths self depth degrees phase_list print_output s =
       (Ok (self, arrivals TauP_Path en'),
        {| world := w';
           log := (log s ++
                   [EvPath (dist_args self depth degrees phase_list);
                    EvRun print_output])%list |})).
Proof.
  split; [|split]; intros en w en' w' Hnew Hrun.
  - unfold get_travel_time. cbv zeta. now rewrite query_outcome, Hnew, Hrun.
  - unfold get_pierce_points. cbv zeta. now rewrite query_outcome, Hnew, Hrun.
  - unfold get_ray_paths. cbv zeta. now rewrite query_outcome, Hnew, Hrun.
Qed.

(** X5.  When the constructor of its engine raises, a query raises
    that exception and stops there: [run] is not called, and the world
    is as the constructor left it. *)
Theorem engine_constructor_error_propagates self depth distance degrees
    phase_list print_output coordinate_list (s : St) :
  (forall e w,
     new TauP_Time (time_args self depth distance phase_list coordinate_list)
         (world s) = (Raise e, w) ->
     travel_time self depth distance phase_list print_output coordinate_list s =
       (Raise e,
        {| world := w;
           log := (log s ++
                   [EvTime (time_args self depth distance phase_list
                                      coordinate_list)])%list |})) /\
  (forall e w,
     new TauP_Pierce (dist_args self depth degrees phase_list) (world s) =
       (Raise e, w) ->
     pierce_points self depth degrees phase_list print_output s =
       (Raise e,
        {| world := w;
           log := (log s ++
                   [EvPierce (dist_args self depth degrees phase_list)])%list |})) /\
  (forall e w,
     new TauP_Path (dist_args self depth degrees phase_list) (world s) =
       (Raise e, w) ->
     ray_paths self depth degrees phase_list print_output s =
       (Raise e,
        {| world := w;
           log := (log s ++
                   [EvPath (dist_args self depth degrees phase_list)])%list |})).
Proof.
  split; [|split]; intros e w Hnew.
  - unfold get_travel_time. cbv zeta. now rewrite query_outcome, Hnew.
  - unfold get_pierce_points. cbv zeta. now rewrite query_outcome, Hnew.
  - unfold get_ray_paths. cbv zeta. now rewrite query_outcome, Hnew.
Qed.

(** X6.  When [run] raises, a query raises that exception: it gives no
    collection, not even of the arrivals the engine may hold, and does
    nothing after the run. *)
Theorem engine_run_error_propagates self depth distance degrees
    phase_list print_output coordinate_list (s : St) :
  (forall en w e w',
     new TauP_Time (time_args self depth distance phase_list coordinate_list)
         (world s) = (Ok en, w) ->
     run TauP_Time en print_output w = (Raise e, w') ->
     travel_time self depth distance phase_list print_output coordinate_list s =
       (Raise e,
        {| world := w';
           log := (log s ++
                   [EvTime (time_args self depth distance phase_list
                                      coordinate_list);
                    EvRun print_output])%list |})) /\
  (forall en w e w',
     new TauP_Pierce (dist_args self depth degrees phase_list) (world s) =
       (Ok en, w) ->
     run TauP_Pierce en print_output w = (Raise e, w') ->
     pierce_points self depth degrees phase_list print_output s =
       (Raise e,
        {| world := w';
           log := (log s ++
                   [EvPierce (dist_args self depth degrees phase_list);
                    EvRun print_output])%list |})) /\
  (forall en w e w',
     new TauP_Path (dist_args self depth degrees phase_list) (world s) =
       (Ok en, w) ->
     run TauP_Path en print_output w = (Raise e, w') ->
     ray_paths self depth degrees phase_list print_output s =
       (Raise e,
        {| world := w';
           log := (log s ++
                   [EvPath (dist_args self depth degrees phase_list);
                    EvRun print_output])%list |})).
Proof.
  split; [|split]; intros en w e w' Hnew Hrun.
  - unfold get_travel_time. cbv zeta. now rewrite query_outcome, Hnew, Hrun.
  - unfold get_pierce_points. cbv zeta. now rewrite query_outcome, Hnew, Hrun.
  - unfold get_ray_paths. cbv zeta. now rewrite query_outcome, Hnew, Hrun.
Qed.

Lemma query_raise_inv (Args : Type) (cls : EngineClass World Arrival Args)
    (ev : Event Num) (args : Args) (print_output : bool)
    (self : TauPyModel TauModel) (s : St) e s' :
  bind (run_engine cls ev args print_output) (fun r => ret (self, r)) s =
    (Raise e, s') ->
  new cls args (world s) = (Raise e, world s') \/
  (exists en w, new cls args (world s) = (Ok en, w) /\
                run cls en print_output w = (Raise e, world s')).
Proof.
  rewrite query_outcome.
  destruct (new cls args (world s)) as [[en|e1] w].
  - destruct (run cls en print_output w) as [[en'|e2] w'] eqn:Hrun;
      intros E; inversion E; subst. right. now exists en, w.
  - intros E; inversion E; subst. now left.
Qed.

(** X7.  A query raises nothing of its own, whatever it is given
    (no distance and no coordinates, both, an empty phase list): an
    exception that leaves it was raised by the constructor of its
    engine or by [run]. *)
Theorem queries_raise_engine_errors_only self depth distance degrees
    phase_list print_output coordinate_list (s : St) e s' :
  (travel_time self depth distance phase_list print_output coordinate_list s =
     (Raise e, s') ->
   new TauP_Time (time_args self depth distance phase_list coordinate_list)
       (world s) = (Raise e, world s') \/
   (exists en w,
      new TauP_Time (time_args self depth distance phase_list coordinate_list)
          (world s) = (Ok en, w) /\
      run TauP_Time en print_output w = (Raise e, world s'))) /\
  (pierce_points self depth degrees phase_list print_output s = (Raise e, s') ->
   new TauP_Pierce (dist_args self depth degrees phase_list) (world s) =
     (Raise e, world s') \/
   (exists en w,
      new TauP_Pierce (dist_args self depth degrees phase_list) (world s) =
        (Ok en, w) /\
      run TauP_Pierce en print_output w = (Raise e, world s'))) /\
  (ray_paths self depth degrees phase_list print_output s = (Raise e, s') ->
   new TauP_Path (dist_args self depth degrees phase_list) (world s) =
     (Raise e, world s') \/
   (exists en w,
      new TauP_Path (dist_args self depth degrees phase_list) (world s) =
        (Ok en, w) /\
      run TauP_Path en print_output w = (Raise e, world s'))).
Proof.
  split; [|split]; intros E.
  - unfold get_travel_time in E. cbv zeta in E. exact (query_raise_inv _ _ _ _ _ _ E).
  - unfold get_pierce_points in E. cbv zeta in E. exact (query_raise_inv _ _ _ _ _ _ E).
  - unfold get_ray_paths in E. cbv zeta in E. exact (query_raise_inv _ _ _ _ _ _ E).
Qed.

(** *** Construction, then a query *)

(** X11.  Constructing a facade whose artifact is there and asking it
    for travel times makes three calls in all: the load, the
    construction of the engine in the world the load left, the run.
    The engine is constructed for the name kept in the loaded model,
    whatever name the facade was constructed with. *)
Theorem construct_then_travel_time model verbose depth distance phase_list
    print_output coordinate_list (s : St) m w1 en w2 en' w3 :
  let self := {| self_model := m; self_verbose := verbose |} in
  load_ext model path verbose (world s) = (Ok m, w1) ->
  new TauP_Time (time_args self depth distance phase_list coordinate_list) w1 =
    (Ok en, w2) ->
  run TauP_Time en print_output w2 = (Ok en', w3) ->
  bind (init model verbose)
       (fun facade => travel_time facade depth distance phase_list
                                  print_output coordinate_list) s =
    (Ok (self, arrivals TauP_Time en'),
     {| world := w3;
        log := (log s ++
                [EvLoad model path verbose;
                 EvTime {| time_phase_list := phase_list_or_default phase_list;
                           time_modelName := modelName m;
                           time_depth := depth;
                           time_degrees := distance;
                           time_coordinate_list := coordinate_list |};
                 EvRun print_output])%list |}).
Proof.
  intros self Hload Hnew Hrun.
  unfold bind at 1.
  rewrite (init_loaded module_dir load_ext TauP_Create_main_ext model verbose s Hload).
  fold self. unfold get_travel_time. cbv zeta.
  rewrite query_outcome. cbn [world log]. rewrite Hnew, Hrun.
  now rewrite <- app_assoc.
Qed.

End FacadeFurther.

(** ** The machine-oriented form *)

Section ArrivalsRepr.

Context {Arrival : Type} `{Py.Display Arrival}.

Lemma join_repr_fold (a : Arrival) (l : list Arrival) (close : string) :
  Py.join ", " (map Py.repr (a :: l)) ++ close =
  Py.repr a ++ fold_right (fun x acc => ", " ++ Py.repr x ++ acc) close l.
Proof.
  unfold Py.join. revert a; induction l as [|b l IH]; intros a.
  - reflexivity.
  - change (String.concat ", " (map Py.repr (a :: b :: l)))
      with (Py.repr a ++ ", " ++ String.concat ", " (map Py.repr (b :: l))).
    rewrite !append_assoc, IH. reflexivity.
Qed.

(** X12.  In the [repr] of a collection that is not empty, the opening
    bracket is followed by the [repr] of the first element, every
    further element comes behind a [", "], and the closing bracket
    follows the last element at once. *)
Theorem Arrivals_repr_shape (a : Arrival) (l : list Arrival) :
  Arrivals_repr (a :: l) =
  "[" ++ Py.repr a ++
    fold_right (fun x acc => ", " ++ Py.repr x ++ acc) "]" l.
Proof.
  unfold Arrivals_repr. now rewrite join_repr_fold.
Qed.

End ArrivalsRepr.

(** ** The model directory *)



(** ** A query asked twice *)

Section RepeatedQuery.

Variables World TauModel Num Arrival : Type.
Variable modelName : TauModel -> string.
Variable TauP_Time : EngineClass World Arrival (TimeArgs Num).
Variable TauP_Pierce : EngineClass World Arrival (DistArgs Num).
Variable TauP_Path : EngineClass World Arrival (DistArgs Num).

Local Abbreviation St := (State World Num).



End RepeatedQuery.

(* ------------------------------------------------------------------ *)
(** * The checking engines at work *)

Module FurtherRuns.

Import Sample.

Local Abbreviation dir := (taup_model_path module_dir).
Local Abbreviation checked_time := (get_travel_time modelName Faulty.TauP_Time).
Local Abbreviation checked_pierce := (get_pierce_points modelName Faulty.TauP_Dist).
Local Abbreviation checked_paths := (get_ray_paths modelName Faulty.TauP_Dist).

(** X3 on the rejected artifact [corrupt]: the [ValueError] that leaves
    the construction is the one [load] raised. *)
Lemma init_raises_collaborator_errors_only_witness :
  Sample.init "corrupt" true (start []) =
    (Raise (Py.OtherError "ValueError" "bad artifact"),
     {| world := []; log := [EvLoad "corrupt" dir true] |}) /\
  ((exists w0, load_ext "corrupt" dir true w0 =
               (Raise (Py.OtherError "ValueError" "bad artifact"), [])) \/
   (exists w0, TauP_Create_main_ext (model_file_name "corrupt") dir w0 =
               (Raise (Py.OtherError "ValueError" "bad artifact"), []))).
Proof.
  split; [reflexivity |].
  apply (init_raises_collaborator_errors_only module_dir load_ext
           TauP_Create_main_ext "corrupt" true (start [])
           (e := Py.OtherError "ValueError" "bad artifact")
           (s' := {| world := []; log := [EvLoad "corrupt" dir true] |})).
  reflexivity.
Defined.

(** X4 on the phases [P] and [S] at depth 10. *)
Lemma queries_answer_with_engine_arrivals_witness :
  fst (checked_time facade 10%Z (Some 20%Z) (Some ["P"; "S"]) true None (start []))
    = Ok (facade, ["P"; "S"]) /\
  fst (checked_pierce facade 10%Z 20%Z (Some ["P"; "S"]) true (start []))
    = Ok (facade, ["P"; "S"]) /\
  fst (checked_paths facade 10%Z 20%Z None true (start []))
    = Ok (facade, ["ttall"]).
Proof.
  destruct (queries_answer_with_engine_arrivals modelName Faulty.TauP_Time
              Faulty.TauP_Dist Faulty.TauP_Dist facade 10%Z (Some 20%Z) 20%Z
              (Some ["P"; "S"]) true None (start [])) as (Ht & Hp & _).
  destruct (queries_answer_with_engine_arrivals modelName Faulty.TauP_Time
              Faulty.TauP_Dist Faulty.TauP_Dist facade 10%Z (Some 20%Z) 20%Z
              None true None (start [])) as (_ & _ & Hr).
  split; [|split].
  - erewrite Ht by reflexivity. reflexivity.
  - erewrite Hp by reflexivity. reflexivity.
  - erewrite Hr by reflexivity. reflexivity.
Defined.

(** X5 on the empty phase list, which the checking constructors
    refuse. *)
Lemma engine_constructor_error_propagates_witness :
  checked_time facade 10%Z (Some 20%Z) (Some []) true None (start []) =
    (Raise (Py.OtherError "ValueError" "no phase"),
     {| world := [];
        log := [EvTime {| time_phase_list := [];
                          time_modelName := "iasp91";
                          time_depth := 10%Z;
                          time_degrees := Some 20%Z;
                          time_coordinate_list := None |}] |}) /\
  fst (checked_pierce facade 10%Z 20%Z (Some []) true (start [])) =
    Raise (Py.OtherError "ValueError" "no phase") /\
  fst (checked_paths facade 10%Z 20%Z (Some []) true (start [])) =
    Raise (Py.OtherError "ValueError" "no phase").
Proof.
  destruct (engine_constructor_error_propagates modelName Faulty.TauP_Time
              Faulty.TauP_Dist Faulty.TauP_Dist facade 10%Z (Some 20%Z) 20%Z
              (Some []) true None (start [])) as (Ht & Hp & Hr).
  split; [|split].
  - erewrite Ht by reflexivity. reflexivity.
  - erewrite Hp by reflexivity. reflexivity.
  - erewrite Hr by reflexivity. reflexivity.
Defined.

(** X6 on a negative depth, which the checking engines refuse when
    run. *)
Lemma engine_run_error_propagates_witness :
  checked_time facade (-1)%Z None None false (Some [1; 2; 3; 4]%Z) (start []) =
    (Raise (Py.OtherError "ValueError" "negative depth"),
     {| world := [];
        log := [EvTime {| time_phase_list := ["ttall"];
                          time_modelName := "iasp91";
                          time_depth := (-1)%Z;
                          time_degrees := None;
                          time_coordinate_list := Some [1; 2; 3; 4]%Z |};
                EvRun false] |}) /\
  fst (checked_pierce facade (-1)%Z 20%Z None false (start [])) =
    Raise (Py.OtherError "ValueError" "negative depth") /\
  fst (checked_paths facade (-1)%Z 20%Z None false (start [])) =
    Raise (Py.OtherError "ValueError" "negative depth").
Proof.
  destruct (engine_run_error_propagates modelName Faulty.TauP_Time
              Faulty.TauP_Dist Faulty.TauP_Dist facade (-1)%Z None 20%Z
              None false (Some [1; 2; 3; 4]%Z) (start [])) as (Ht & Hp & Hr).
  split; [|split].
  - erewrite Ht by reflexivity. reflexivity.
  - erewrite Hp by reflexivity. reflexivity.
  - erewrite Hr by reflexivity. reflexivity.
Defined.

(** X7 on a query with no distance, no coordinates and an empty phase
    list: what it raises is what the constructor raised. *)
Lemma queries_raise_engine_errors_only_witness :
  new Faulty.TauP_Time
      {| time_phase_list := [];
         time_modelName := "iasp91";
         time_depth := 10%Z;
         time_degrees := None;
         time_coordinate_list := None |} [] =
    (Raise (Py.OtherError "ValueError" "no phase"), []) \/
  (exists en w,
     new Faulty.TauP_Time
         {| time_phase_list := [];
            time_modelName := "iasp91";
            time_depth := 10%Z;
            time_degrees := None;
            time_coordinate_list := None |} [] = (Ok en, w) /\
     run Faulty.TauP_Time en true w =
       (Raise (Py.OtherError "ValueError" "no phase"), [])).
Proof.
  apply (proj1 (queries_raise_engine_errors_only modelName Faulty.TauP_Time
                  Faulty.TauP_Dist Faulty.TauP_Dist facade 10%Z None 20%Z
                  (Some []) true None (start [])
                  (Py.OtherError "ValueError" "no phase")
                  {| world := [];
                     log := [EvTime {| time_phase_list := [];
                                       time_modelName := "iasp91";
                                       time_depth := 10%Z;
                                       time_degrees := None;
                                       time_coordinate_list := None |}] |})).
  reflexivity.
Defined.

(** X9 on the collection of [P] and [S]. *)
Lemma Arrivals_str_lines_witness :
  split_on newline (Arrivals_str (["P"; "S"] : Arrivals Arrival)) =
    ["2 arrivals"; Py.TAB ++ "P arrival"; Py.TAB ++ "S arrival"] /\
  List.length (split_on newline (Arrivals_str (["P"; "S"] : Arrivals Arrival))) = 3.
Proof.
  refine (Arrivals_str_lines (["P"; "S"] : Arrivals Arrival) _).
  intros a [<-|[<-|[]]]; simpl; intuition discriminate.
Defined.

(** X10 on one arrival against none. *)
Lemma Arrivals_str_tells_size_witness :
  Arrivals_str (["P"] : Arrivals Arrival) <> Arrivals_str ([] : Arrivals Arrival).
Proof.
  apply Arrivals_str_tells_size. simpl. lia.
Defined.

(** X11 on [iasp91], its artifact in place. *)
Lemma construct_then_travel_time_witness :
  bind (Sample.init "iasp91" false)
       (fun f => checked_time f 10%Z (Some 20%Z) None false None)
       (start ["iasp91"]) =
    (Ok (facade, ["ttall"]),
     {| world := ["iasp91"];
        log := [EvLoad "iasp91" dir false;
                EvTime {| time_phase_list := ["ttall"];
                          time_modelName := "iasp91";
                          time_depth := 10%Z;
                          time_degrees := Some 20%Z;
                          time_coordinate_list := None |};
                EvRun false] |}).
Proof.
  apply (construct_then_travel_time modelName module_dir load_ext
           TauP_Create_main_ext Faulty.TauP_Time "iasp91" false 10%Z
           (Some 20%Z) None false None (start ["iasp91"])
           (m := "iasp91") (w1 := ["iasp91"])
           (en := ({| time_phase_list := ["ttall"];
                      time_modelName := "iasp91";
                      time_depth := 10%Z;
                      time_degrees := Some 20%Z;
                      time_coordinate_list := None |}, []))
           (w2 := ["iasp91"])
           (en' := ({| time_phase_list := ["ttall"];
                       time_modelName := "iasp91";
                       time_depth := 10%Z;
                       time_degrees := Some 20%Z;
                       time_coordinate_list := None |}, ["ttall"]))
           (w3 := ["iasp91"])); reflexivity.
Defined.



End FurtherRuns.
